(** * Gas-lift and choke optimisation: a shallow embedding of
      [gas_lift_choke_optimization.py] and the properties of its
      generate / train / optimize methods.

    Numbers.  The program computes with NumPy [float64] values.  The
    embedding uses exact rationals [Q] (numeric equality is [Qeq], written
    [==]); rounding of IEEE doubles is outside the model.

    Libraries.  NumPy's random generator, [np.sqrt] and the scikit-learn
    estimators are not part of the repository; they are the fields of the
    class [Library] below and every method is parametric in them.  The
    deterministic library routines the methods call ([np.linspace],
    [np.argmax], [np.maximum], [pd.DataFrame], [train_test_split]) are
    written out as the libraries compute them.  The module [Demo] gives one
    executable instance of [Library] on which the methods are run. *)

From Stdlib Require Import QArith Qround Lqa.
From stdpp Require Import base option list strings gmap.

Local Open Scope string_scope.
Local Open Scope list_scope.

(** ** Exceptions *)

(** The Python exceptions the methods can raise, followed by the three error
    classes that only the specification names. *)
Inductive exn : Type :=
| KeyError (key : string)
| AttributeError (attr : string)
| ValueError (msg : string)
| IndexError
| InvalidIntervalError
| SchemaMismatchError
| InsufficientDataError.

Inductive outcome (A : Type) : Type :=
| Return (a : A)
| Raise (e : exn).
Arguments Return {A} a.
Arguments Raise {A} e.

Definition is_Return {A} (o : outcome A) : Prop :=
  match o with Return _ => True | Raise _ => False end.

(** ** Numeric helpers *)

Definition Qltb (x y : Q) : bool :=
  (Qnum x * Zpos (Qden y) <? Qnum y * Zpos (Qden x))%Z.

Definition Q_of_nat (n : nat) : Q := inject_Z (Z.of_nat n).

(** [np.maximum(x, y)] on scalars. *)
Definition np_maximum (x y : Q) : Q := if Qltb x y then y else x.

(** [np.linspace(start, stop, num)] with [endpoint=True]:
    [step = (stop - start) / (num - 1)], [y = arange(num) * step + start],
    and the last entry is overwritten with [stop] when [num > 1]. *)
Definition np_linspace (start stop : Q) (num : nat) : list Q :=
  let div := (num - 1)%nat in
  let step := ((stop - start) / Q_of_nat div)%Q in
  let y := (λ i, Q_of_nat i * step + start)%Q <$> seq 0 num in
  if (1 <? num)%nat then <[(num - 1)%nat := stop]> y else y.

(** [np.argmax]: a left-to-right scan that replaces the running best only on
    a strictly larger entry, so the first occurrence of the maximum wins. *)
Fixpoint argmax_scan (best_idx : nat) (best : Q) (i : nat) (l : list Q) : nat :=
  match l with
  | [] => best_idx
  | x :: l' =>
      if Qltb best x then argmax_scan i x (S i) l'
      else argmax_scan best_idx best (S i) l'
  end.

Definition np_argmax (l : list Q) : outcome nat :=
  match l with
  | [] => Raise (ValueError "attempt to get argmax of an empty sequence")
  | x :: l' => Return (argmax_scan 0 x 1 l')
  end.


(** Indexing an array, [a[i]]. *)
Definition getitem (a : list Q) (i : nat) : outcome Q :=
  match a !! i with
  | Some x => Return x
  | None => Raise IndexError
  end.

(** Subscripting a dict, [d[key]]. *)
Definition dict_getitem (d : gmap string Q) (key : string) : outcome Q :=
  match d !! key with
  | Some v => Return v
  | None => Raise (KeyError key)
  end.

(** ** Data frames *)

(** A [pandas.DataFrame] of numeric columns: the columns in order, each with
    its name. *)
Definition DataFrame : Type := list (string * list Q).

Definition same_length (cols : list (string * list Q)) : bool :=
  match cols with
  | [] => true
  | c :: cs => forallb (λ c', length c'.2 =? length c.2)%nat cs
  end.

(** [pd.DataFrame({...})] from a dict literal of arrays. *)
Definition pd_DataFrame (cols : list (string * list Q)) : outcome DataFrame :=
  if same_length cols then Return cols
  else Raise (ValueError "All arrays must be of the same length").

Definition df_len (df : DataFrame) : nat :=
  match df with
  | [] => 0%nat
  | c :: _ => length c.2
  end.

Definition df_row (df : DataFrame) (i : nat) : list Q :=
  (λ c, nth i c.2 0%Q) <$> df.

Definition df_rows (df : DataFrame) : list (list Q) :=
  df_row df <$> seq 0 (df_len df).

Definition has_column (name : string) (df : DataFrame) : bool :=
  existsb (λ c, String.eqb c.1 name) df.

(** [df.drop(name, axis=1)]. *)
Definition df_drop (name : string) (df : DataFrame) : outcome DataFrame :=
  if has_column name df
  then Return (filter (λ c, c.1 ≠ name) df)
  else Raise (KeyError name).

(** [df[name]]. *)
Definition df_getitem (name : string) (df : DataFrame) : outcome (list Q) :=
  match list_find (λ c, c.1 = name) df with
  | Some (_, c) => Return c.2
  | None => Raise (KeyError name)
  end.

(** Row selection by position, [X.iloc[idx]] and [y.iloc[idx]]. *)
Definition take_rows {A} (d : A) (idx : list nat) (l : list A) : list A :=
  (λ i, nth i l d) <$> idx.

(** ** The library interface *)

(** A fitted estimator, seen through [predict] on one feature row (the
    features in column order). *)
Definition regressor : Type := list Q → Q.

Class Library : Type := {
  (** state of NumPy's global [RandomState] *)
  rng : Type;
  (** [np.random.seed(s)] *)
  np_random_seed : Z → rng;
  (** one draw from the uniform distribution on [0, 1) *)
  random_sample : rng → Q * rng;
  (** one draw from the standard normal distribution *)
  standard_normal : rng → Q * rng;
  (** [np.sqrt] *)
  np_sqrt : Q → Q;
  (** [RandomState(s).permutation(n)], the shuffle of [train_test_split] *)
  permutation : Z → nat → list nat;
  (** [RandomForestRegressor().fit(X, y)]; with [random_state=None] the
      estimator draws from the global generator *)
  RandomForestRegressor_fit : list (list Q) → list Q → rng → regressor * rng;
  (** [GradientBoostingRegressor().fit(X, y)] *)
  GradientBoostingRegressor_fit : list (list Q) → list Q → rng → regressor * rng;
  (** [r2_score(y_true, y_pred)], the value of [model.score] *)
  r2_score : list Q → list Q → Q
}.

(** [model.predict(df)]: one prediction per row. *)
Definition predict (m : regressor) (df : DataFrame) : list Q :=
  m <$> df_rows df.

(** Element-wise array arithmetic, as NumPy broadcasts it. *)
Definition arr_add (a b : list Q) : list Q := zip_with Qplus a b.
Definition arr_sub (a b : list Q) : list Q := zip_with Qminus a b.
Definition arr_mul (a b : list Q) : list Q := zip_with Qmult a b.
Definition arr_scale (c : Q) (a : list Q) : list Q := Qmult c <$> a.
Definition arr_shift (c : Q) (a : list Q) : list Q := Qplus c <$> a.

(** scikit-learn's [train_test_split(X, y, test_size, random_state)] with
    [train_size=None] and shuffling, as the library computes it:
    [n_test = ceil(test_size * n)], [n_train = n - n_test], a [ValueError]
    when the training part would be empty, otherwise the first [n_test]
    indices of the permutation are held out and the next [n_train] are
    trained on.  The four parts are returned as rows and targets. *)
Definition train_test_split `{Library} (X : DataFrame) (y : list Q)
    (test_size : Q) (random_state : Z)
  : outcome (list (list Q) * list (list Q) * list Q * list Q) :=
  let n_samples := df_len X in
  let n_test := Z.to_nat (Qceiling (test_size * Q_of_nat n_samples)) in
  let n_train := (n_samples - n_test)%nat in
  if (n_train =? 0)%nat
  then Raise (ValueError "the resulting train set will be empty")
  else
    let perm := permutation random_state n_samples in
    let ind_test := take n_test perm in
    let ind_train := take n_train (drop n_test perm) in
    Return (take_rows [] ind_train (df_rows X),
            take_rows [] ind_test (df_rows X),
            take_rows 0%Q ind_train y,
            take_rows 0%Q ind_test y).

(** ** The optimizer object and the process state *)

Record GasLiftChokeOptimizer : Type := mkOptimizer {
  gas_lift_model : option regressor;
  choke_model : option regressor;
  gas_lift_data : option DataFrame;
  choke_data : option DataFrame
}.

(** [__init__]: all four fields are [None]. *)
Definition init : GasLiftChokeOptimizer := mkOptimizer None None None None.

Section Program.
Context `{Library}.

(** What a method call can read and write: the object [self], the global
    random state of NumPy, and the lines printed so far (label and score). *)
Record world : Type := World {
  self : GasLiftChokeOptimizer;
  np_random : rng;
  stdout : list (string * Q)
}.

(** A method body: it ends by returning or raising, and leaves a state. *)
Definition M (A : Type) : Type := world → outcome A * world.

Definition ret {A} (a : A) : M A := λ w, (Return a, w).

Definition bind {A B} (c : M A) (k : A → M B) : M B :=
  λ w, match c w with
       | (Return a, w') => k a w'
       | (Raise e, w') => (Raise e, w')
       end.

Definition lift {A} (o : outcome A) : M A := λ w, (o, w).

Definition raise {A} (e : exn) : M A := lift (Raise e).

Definition get_self : M GasLiftChokeOptimizer := λ w, (Return (self w), w).

Definition set_self (f : GasLiftChokeOptimizer → GasLiftChokeOptimizer) : M unit :=
  λ w, (Return (), World (f (self w)) (np_random w) (stdout w)).

(** Run a library routine that threads the global random state. *)
Definition with_rng {A} (f : rng → A * rng) : M A :=
  λ w, let '(a, s) := f (np_random w) in
       (Return a, World (self w) s (stdout w)).

Definition print (label : string) (x : Q) : M unit :=
  λ w, (Return (), World (self w) (np_random w) (stdout w ++ [(label, x)])).

(** Attribute lookup on a field that may still be [None]. *)
Definition getattr {A} (o : option A) (attr : string) : M A :=
  match o with
  | Some a => ret a
  | None => raise (AttributeError attr)
  end.
End Program.

Notation "x <- c ;; k" := (bind c (λ x, k))
  (at level 100, c at next level, right associativity).
Notation "c ;;; k" := (bind c (λ _, k))
  (at level 100, right associativity).

Section Methods.
Context `{Library}.

(** [n] successive draws. *)
Fixpoint draws {A} (f : rng → A * rng) (n : nat) (s : rng) : list A * rng :=
  match n with
  | O => ([], s)
  | S n' =>
      let '(x, s1) := f s in
      let '(xs, s2) := draws f n' s1 in
      (x :: xs, s2)
  end.

(** [np.random.uniform(low, high, n)]. *)
Definition uniform (low high : Q) (n : nat) : M (list Q) :=
  us <- with_rng (draws random_sample n) ;;
  ret ((λ u, low + (high - low) * u)%Q <$> us).

(** [np.random.normal(loc, scale, n)]. *)
Definition normal (loc scale : Q) (n : nat) : M (list Q) :=
  gs <- with_rng (draws standard_normal n) ;;
  ret ((λ g, loc + scale * g)%Q <$> gs).

Definition generate_gas_lift_data (n : nat) : M DataFrame :=
  hi <- uniform 1000 4000 n ;;
  lo <- uniform 100 800 n ;;
  let pressure_diff := arr_sub hi lo in
  gas_injection_rate <- uniform (1 # 2) 5 n ;;
  water_cut <- uniform 0 95 n ;;
  noise <- normal 0 50 n ;;
  let oil :=
    arr_add (arr_sub (arr_add (arr_scale (1 # 10) pressure_diff)
                              (arr_scale 50 gas_injection_rate))
                     (arr_scale 2 water_cut))
            noise in
  let oil := (λ x, np_maximum x 10) <$> oil in
  df <- lift (pd_DataFrame [("gas_injection_rate", gas_injection_rate);
                            ("pressure_diff", pressure_diff);
                            ("water_cut", water_cut);
                            ("oil_production", oil)]) ;;
  set_self (λ o, mkOptimizer (gas_lift_model o) (choke_model o)
                             (Some df) (choke_data o)) ;;;
  ret df.

Definition generate_choke_data (n : nat) : M DataFrame :=
  choke_size <- uniform 8 64 n ;;
  hi <- uniform 500 3000 n ;;
  lo <- uniform 50 500 n ;;
  let delta_p := arr_sub hi lo in
  glr <- uniform 100 2000 n ;;
  noise <- normal 0 50 n ;;
  let flow :=
    arr_add (arr_mul (arr_mul choke_size (np_sqrt <$> delta_p))
                     (arr_shift 1 (arr_scale (1 # 1000) glr)))
            noise in
  let flow := (λ x, np_maximum x 10) <$> flow in
  df <- lift (pd_DataFrame [("choke_size", choke_size);
                            ("delta_p", delta_p);
                            ("glr", glr);
                            ("flow_rate", flow)]) ;;
  set_self (λ o, mkOptimizer (gas_lift_model o) (choke_model o)
                             (gas_lift_data o) (Some df)) ;;;
  ret df.

Definition train_gas_lift_model : M unit :=
  o <- get_self ;;
  data <- getattr (gas_lift_data o) "drop" ;;
  X <- lift (df_drop "oil_production" data) ;;
  y <- lift (df_getitem "oil_production" data) ;;
  parts <- lift (train_test_split X y (2 # 10) 42) ;;
  let '(X_train, X_test, y_train, y_test) := parts in
  m <- with_rng (RandomForestRegressor_fit X_train y_train) ;;
  set_self (λ o, mkOptimizer (Some m) (choke_model o)
                             (gas_lift_data o) (choke_data o)) ;;;
  print "Gas Lift Model R²:" (r2_score y_test (m <$> X_test)).

Definition train_choke_model : M unit :=
  o <- get_self ;;
  data <- getattr (choke_data o) "drop" ;;
  X <- lift (df_drop "flow_rate" data) ;;
  y <- lift (df_getitem "flow_rate" data) ;;
  parts <- lift (train_test_split X y (2 # 10) 42) ;;
  let '(X_train, X_test, y_train, y_test) := parts in
  m <- with_rng (GradientBoostingRegressor_fit X_train y_train) ;;
  set_self (λ o, mkOptimizer (gas_lift_model o) (Some m)
                             (gas_lift_data o) (choke_data o)) ;;;
  print "Choke Model R²:" (r2_score y_test (m <$> X_test)).

(** The result tuple of an optimisation: best control value, its
    prediction, the grid and the predictions over the grid. *)
Definition result : Type := Q * Q * list Q * list Q.

Definition optimize_gas_lift (well_conditions : gmap string Q)
    (gas_range : Q * Q) : M result :=
  let gas_rates := np_linspace gas_range.1 gas_range.2 100 in
  pressure_diff <- lift (dict_getitem well_conditions "pressure_diff") ;;
  water_cut <- lift (dict_getitem well_conditions "water_cut") ;;
  df <- lift (pd_DataFrame [("gas_injection_rate", gas_rates);
                            ("pressure_diff", replicate 100 pressure_diff);
                            ("water_cut", replicate 100 water_cut)]) ;;
  o <- get_self ;;
  m <- getattr (gas_lift_model o) "predict" ;;
  let preds := predict m df in
  best_idx <- lift (np_argmax preds) ;;
  best_rate <- lift (getitem gas_rates best_idx) ;;
  best_pred <- lift (getitem preds best_idx) ;;
  ret (best_rate, best_pred, gas_rates, preds).

Definition optimize_choke (flow_conditions : gmap string Q)
    (choke_range : Q * Q) : M result :=
  let choke_sizes := np_linspace choke_range.1 choke_range.2 100 in
  delta_p <- lift (dict_getitem flow_conditions "delta_p") ;;
  glr <- lift (dict_getitem flow_conditions "glr") ;;
  df <- lift (pd_DataFrame [("choke_size", choke_sizes);
                            ("delta_p", replicate 100 delta_p);
                            ("glr", replicate 100 glr)]) ;;
  o <- get_self ;;
  m <- getattr (choke_model o) "predict" ;;
  let preds := predict m df in
  best_idx <- lift (np_argmax preds) ;;
  best_size <- lift (getitem choke_sizes best_idx) ;;
  best_pred <- lift (getitem preds best_idx) ;;
  ret (best_size, best_pred, choke_sizes, preds).

(** The default search ranges of the two methods. *)
Definition default_gas_range : Q * Q := (1 # 2, 5)%Q.
Definition default_choke_range : Q * Q := (8, 64)%Q.
End Methods.

(** ** The two processes

    The methods come in pairs, one per physical process.  The dispatchers
    below select a method, a field of the object or a column name by process,
    so that a property of both methods is stated once. *)
Inductive process : Type := GasLift | Choke.

Definition model (p : process) (o : GasLiftChokeOptimizer) : option regressor :=
  match p with GasLift => gas_lift_model o | Choke => choke_model o end.

Definition data (p : process) (o : GasLiftChokeOptimizer) : option DataFrame :=
  match p with GasLift => gas_lift_data o | Choke => choke_data o end.

(** The swept column, the two context columns, and the target column. *)
Definition control_field (p : process) : string :=
  match p with GasLift => "gas_injection_rate" | Choke => "choke_size" end.

Definition context_fields (p : process) : string * string :=
  match p with
  | GasLift => ("pressure_diff", "water_cut")
  | Choke => ("delta_p", "glr")
  end.

Definition target_field (p : process) : string :=
  match p with GasLift => "oil_production" | Choke => "flow_rate" end.

Section Dispatch.
Context `{Library}.

Definition generate (p : process) : nat → M DataFrame :=
  match p with
  | GasLift => generate_gas_lift_data
  | Choke => generate_choke_data
  end.

Definition train (p : process) : M unit :=
  match p with
  | GasLift => train_gas_lift_model
  | Choke => train_choke_model
  end.

Definition optimize (p : process) : gmap string Q → Q * Q → M result :=
  match p with
  | GasLift => optimize_gas_lift
  | Choke => optimize_choke
  end.

(** [np.random.seed(s)]. *)
Definition reseed (s : Z) : M unit :=
  λ w, (Return (), World (self w) (np_random_seed s) (stdout w)).
End Dispatch.

(** ** A concrete library

    A small executable instance of [Library], used to run the methods on
    concrete inputs: a linear congruential generator for the random stream,
    a sum of twelve uniform draws for the normal deviate, a six-digit
    square root, a reversing shuffle and a nearest-neighbour estimator. *)
Module Demo.
Definition lcg_next (s : Z) : Z := ((1103515245 * s + 12345) mod 2147483648)%Z.

Definition lcg_sample (s : Z) : Q * Z :=
  let s' := lcg_next s in (s' # 2147483648, s')%Q.

Fixpoint lcg_sum (k : nat) (acc : Q) (s : Z) : Q * Z :=
  match k with
  | O => (acc, s)
  | S k' => let '(u, s') := lcg_sample s in lcg_sum k' (acc + u)%Q s'
  end.

Definition lcg_normal (s : Z) : Q * Z :=
  let '(x, s') := lcg_sum 12 0%Q s in (Qred (x - 6), s')%Q.

Definition sqrt6 (x : Q) : Q :=
  (Z.sqrt (Qfloor (x * 1000000000000)) # 1000000)%Q.

Definition dist2 (r1 r2 : list Q) : Q :=
  foldr Qplus 0%Q (zip_with (λ u v, (u - v) * (u - v))%Q r1 r2).

(** The target of the training row closest to [r]. *)
Fixpoint nearest (X : list (list Q)) (y : list Q) (r : list Q)
    (best : Q * Q) : Q :=
  match X, y with
  | x :: X', t :: y' =>
      if Qltb (dist2 x r) best.1 then nearest X' y' r (dist2 x r, t)
      else nearest X' y' r best
  | _, _ => best.2
  end.

Definition knn_fit (X : list (list Q)) (y : list Q) (s : Z) : regressor * Z :=
  match X, y with
  | x :: X', t :: y' => (λ r, nearest X' y' r (dist2 x r, t), s)
  | _, _ => (λ _, 0%Q, s)
  end.

Definition mean (l : list Q) : Q :=
  (foldr Qplus 0 l / Q_of_nat (length l))%Q.

Definition r2 (y_true y_pred : list Q) : Q :=
  let mu := mean y_true in
  let ss_res := foldr Qplus 0%Q (zip_with (λ t p, (t - p) * (t - p))%Q y_true y_pred) in
  let ss_tot := foldr Qplus 0%Q ((λ t, (t - mu) * (t - mu))%Q <$> y_true) in
  Qred (1 - ss_res / ss_tot)%Q.

#[export] Instance library : Library := {|
  rng := Z;
  np_random_seed := λ s, s;
  random_sample := lcg_sample;
  standard_normal := lcg_normal;
  np_sqrt := sqrt6;
  permutation := λ _ n, reverse (seq 0 n);
  RandomForestRegressor_fit := λ X y s, knn_fit X y (lcg_next s);
  GradientBoostingRegressor_fit := knn_fit;
  r2_score := r2
|}.

(** The state of the demo script after the module-level
    [np.random.seed(42)] and the constructor call. *)
Definition start : world := World init (np_random_seed 42) [].

(** A stored model whose prediction rises with the control value up to 3
    and is flat afterwards. *)
Definition plateau : regressor :=
  λ r, match r with
       | v :: _ => if Qltb v 3 then v else 3%Q
       | [] => 0%Q
       end.

Definition trained : world :=
  World (mkOptimizer (Some plateau) (Some plateau) None None)
        (np_random_seed 42) [].

Definition well : gmap string Q :=
  {[ "pressure_diff" := 2000%Q; "water_cut" := 30%Q ]}.

Definition flow : gmap string Q :=
  {[ "delta_p" := 1200%Q; "glr" := 500%Q ]}.
End Demo.

(** ** Further names by process, and further demo states *)

(** The process an object also serves. *)
Definition other (p : process) : process :=
  match p with GasLift => Choke | Choke => GasLift end.

(** The label a train method prints before the score. *)
Definition score_label (p : process) : string :=
  match p with
  | GasLift => "Gas Lift Model R²:"
  | Choke => "Choke Model R²:"
  end.

Module DemoModels.


End DemoModels.

(** * Properties *)

(** ** Order on rationals *)

Lemma Qltb_lt (x y : Q) : Qltb x y = true ↔ (x < y)%Q.
Proof. unfold Qltb, Qlt. apply Z.ltb_lt. Qed.

Lemma Qltb_ge (x y : Q) : Qltb x y = false ↔ (y <= x)%Q.
Proof. unfold Qltb, Qle. apply Z.ltb_ge. Qed.

Lemma np_maximum_ge_r (x y : Q) : (y <= np_maximum x y)%Q.
Proof.
  unfold np_maximum. destruct (Qltb x y) eqn:E.
  - apply Qle_refl.
  - by apply Qltb_ge.
Qed.

Lemma np_maximum_below (x y : Q) : (x < y)%Q → np_maximum x y = y.
Proof. intros Hlt. unfold np_maximum. by apply Qltb_lt in Hlt as ->. Qed.

(** ** The grid *)

Lemma length_np_linspace (a b : Q) (n : nat) : length (np_linspace a b n) = n.
Proof.
  unfold np_linspace. destruct (1 <? n)%nat;
    rewrite ?length_insert, length_fmap, length_seq; reflexivity.
Qed.








(** ** The argmax scan *)

(** Either the running best survives the scan, or the scan stops on the first
    entry that beats it and is not beaten later. *)
Lemma argmax_scan_spec (l : list Q) : ∀ (bi : nat) (b : Q) (i : nat),
  (argmax_scan bi b i l = bi ∧ ∀ j y, l !! j = Some y → (y <= b)%Q)
  ∨ (∃ k x, argmax_scan bi b i l = (i + k)%nat ∧ l !! k = Some x ∧ (b < x)%Q
       ∧ (∀ j y, l !! j = Some y → (y <= x)%Q)
       ∧ (∀ j y, (j < k)%nat → l !! j = Some y → (y < x)%Q)).
Proof.
  induction l as [| x l IH]; intros bi b i; cbn [argmax_scan].
  - left. split; [done |]. intros j y Hj. by rewrite lookup_nil in Hj.
  - destruct (Qltb b x) eqn:E.
    + apply Qltb_lt in E. right.
      destruct (IH i x (S i)) as [[-> Hall] | (k & v & -> & Hk & Hxv & Hall & Hbefore)].
      * exists 0%nat, x. split; [lia |]. split; [done |]. split; [done |]. split.
        -- intros [| j] y Hj; simpl in Hj.
           ++ injection Hj as <-. apply Qle_refl.
           ++ eauto.
        -- intros j y Hj. lia.
      * exists (S k), v. split; [lia |]. split; [done |].
        split; [by apply Qlt_trans with x |]. split.
        -- intros [| j] y Hj; simpl in Hj.
           ++ injection Hj as <-. by apply Qlt_le_weak.
           ++ eauto.
        -- intros [| j] y Hlt Hj; simpl in Hj.
           ++ by injection Hj as <-.
           ++ apply (Hbefore j); [lia | done].
    + apply Qltb_ge in E.
      destruct (IH bi b (S i)) as [[-> Hall] | (k & v & -> & Hk & Hbv & Hall & Hbefore)].
      * left. split; [done |].
        intros [| j] y Hj; simpl in Hj.
        -- by injection Hj as <-.
        -- eauto.
      * right. exists (S k), v. split; [lia |]. split; [done |].
        split; [done |]. split.
        -- intros [| j] y Hj; simpl in Hj.
           ++ injection Hj as <-. apply Qlt_le_weak. by apply Qle_lt_trans with b.
           ++ eauto.
        -- intros [| j] y Hlt Hj; simpl in Hj.
           ++ injection Hj as <-. by apply Qle_lt_trans with b.
           ++ apply (Hbefore j); [lia | done].
Qed.

(** On a non-empty array [np.argmax] returns an index of the array, no entry
    exceeds the entry there, and every earlier entry is strictly below it. *)
Lemma np_argmax_spec (l : list Q) :
  l ≠ [] →
  ∃ i p, np_argmax l = Return i ∧ l !! i = Some p
    ∧ (∀ j q, l !! j = Some q → (q <= p)%Q)
    ∧ (∀ j q, (j < i)%nat → l !! j = Some q → (q < p)%Q).
Proof.
  destruct l as [| x l]; [done | intros _]. cbn [np_argmax].
  destruct (argmax_scan_spec l 0 x 1)
    as [[-> Hall] | (k & v & -> & Hk & Hxv & Hall & Hbefore)].
  - exists 0%nat, x. split; [done |]. split; [done |]. split.
    + intros [| j] q Hj; simpl in Hj.
      * injection Hj as <-. apply Qle_refl.
      * eauto.
    + intros j q Hj. lia.
  - exists (S k), v. split; [done |]. split; [done |]. split.
    + intros [| j] q Hj; simpl in Hj.
      * injection Hj as <-. by apply Qlt_le_weak.
      * eauto.
    + intros [| j] q Hlt Hj; simpl in Hj.
      * by injection Hj as <-.
      * apply (Hbefore j); [lia | done].
Qed.



(** ** Data frames built by the methods *)

Lemma nth_replicate_lt {A} (n i : nat) (x d : A) :
  (i < n)%nat → nth i (replicate n x) d = x.
Proof.
  intros Hi. apply nth_lookup_Some. by apply lookup_replicate_2.
Qed.

(** The rows of a frame made of one array and two constant columns. *)
Lemma df_rows_grid (c1 c2 c3 : string) (g : list Q) (x y : Q) :
  df_rows [(c1, g); (c2, replicate (length g) x); (c3, replicate (length g) y)]
  = (λ v, [v; x; y]) <$> g.
Proof.
  unfold df_rows, df_len, df_row. cbn [snd fmap list_fmap].
  apply list_eq. intros i. rewrite !list_lookup_fmap.
  destruct (decide (i < length g)%nat) as [Hi | Hi].
  - rewrite lookup_seq_lt by done.
    destruct (lookup_lt_is_Some_2 g i Hi) as [v Hv]. rewrite Hv. simpl.
    rewrite !nth_replicate_lt by done.
    by rewrite (nth_lookup_Some _ _ _ _ Hv).
  - rewrite lookup_seq_ge by lia.
    by rewrite lookup_ge_None_2 by lia.
Qed.

Lemma pd_DataFrame_grid (c1 c2 c3 : string) (g : list Q) (x y : Q) :
  pd_DataFrame [(c1, g); (c2, replicate (length g) x);
                (c3, replicate (length g) y)]
  = Return [(c1, g); (c2, replicate (length g) x);
            (c3, replicate (length g) y)].
Proof.
  unfold pd_DataFrame, same_length. cbn [forallb snd].
  by rewrite !length_replicate, Nat.eqb_refl.
Qed.

(** ** Running the optimisation methods *)

Section Optimize.
Context `{Library}.

Ltac unfold_optimize :=
  unfold optimize, optimize_gas_lift, optimize_choke, context_fields, model,
    bind, lift, raise, ret, get_self, getattr, dict_getitem;
  cbn [fst snd].

(** With both context fields present and a model stored, the method returns
    the curve and its argmax entry, and leaves the state as it was. *)
Lemma optimize_run (p : process) (ctx : gmap string Q) (a b : Q) (w : world)
    (m : regressor) (v1 v2 : Q) :
  ctx !! (context_fields p).1 = Some v1 →
  ctx !! (context_fields p).2 = Some v2 →
  model p (self w) = Some m →
  ∃ i x pr,
    optimize p ctx (a, b) w
    = (Return (x, pr, np_linspace a b 100,
               (λ v, m [v; v1; v2]) <$> np_linspace a b 100), w)
    ∧ np_argmax ((λ v, m [v; v1; v2]) <$> np_linspace a b 100) = Return i
    ∧ np_linspace a b 100 !! i = Some x
    ∧ ((λ v, m [v; v1; v2]) <$> np_linspace a b 100) !! i = Some pr.
Proof.
  intros H1 H2 Hm.
  set (grid := np_linspace a b 100).
  set (preds := (λ v, m [v; v1; v2]) <$> grid).
  assert (Hlen : length grid = 100%nat) by apply length_np_linspace.
  destruct (np_argmax_spec preds) as (i & pr & Hi & Hp & _).
  { intros E. apply (f_equal length) in E.
    unfold preds in E. rewrite length_fmap, Hlen in E. done. }
  assert (Hx : is_Some (grid !! i)).
  { apply lookup_lt_is_Some. apply lookup_lt_Some in Hp.
    unfold preds in Hp. by rewrite length_fmap in Hp. }
  destruct Hx as [x Hx].
  exists i, x, pr. split; [| done].
  destruct p; unfold_optimize; fold grid;
    unfold context_fields, model in H1, H2, Hm; cbn [fst snd] in H1, H2;
    rewrite H1, H2;
    rewrite <- Hlen at 1 2; rewrite pd_DataFrame_grid; rewrite Hm;
    unfold ret, predict; rewrite df_rows_grid, <- list_fmap_compose;
    change (m ∘ (λ v : Q, [v; v1; v2]) <$> grid) with preds;
    rewrite Hi; unfold getitem; rewrite Hx, Hp; reflexivity.
Qed.

(** The failures: the first missing field is reported by [KeyError], and a
    model that is still [None] by [AttributeError]. *)
Lemma optimize_missing_first (p : process) (ctx : gmap string Q)
    (r : Q * Q) (w : world) :
  ctx !! (context_fields p).1 = None →
  optimize p ctx r w = (Raise (KeyError (context_fields p).1), w).
Proof.
  intros H1. destruct p; unfold_optimize;
    unfold context_fields in H1; cbn [fst] in H1; by rewrite H1.
Qed.

Lemma optimize_missing_second (p : process) (ctx : gmap string Q)
    (r : Q * Q) (w : world) (v1 : Q) :
  ctx !! (context_fields p).1 = Some v1 →
  ctx !! (context_fields p).2 = None →
  optimize p ctx r w = (Raise (KeyError (context_fields p).2), w).
Proof.
  intros H1 H2. destruct p; unfold_optimize;
    unfold context_fields in H1, H2; cbn [fst snd] in H1, H2;
    by rewrite H1, H2.
Qed.

Lemma optimize_no_model (p : process) (ctx : gmap string Q)
    (r : Q * Q) (w : world) (v1 v2 : Q) :
  ctx !! (context_fields p).1 = Some v1 →
  ctx !! (context_fields p).2 = Some v2 →
  model p (self w) = None →
  optimize p ctx r w = (Raise (AttributeError "predict"), w).
Proof.
  intros H1 H2 Hm. destruct r as [a b].
  pose proof (length_np_linspace a b 100) as Hlen.
  destruct p; unfold_optimize;
    unfold context_fields, model in H1, H2, Hm; cbn [fst snd] in H1, H2;
    rewrite H1, H2;
    rewrite <- Hlen at 1 2; rewrite pd_DataFrame_grid; by rewrite Hm.
Qed.

(** Whatever the outcome, the state after the call is the state before. *)
Lemma optimize_state (p : process) (ctx : gmap string Q) (r : Q * Q)
    (w : world) :
  (optimize p ctx r w).2 = w.
Proof.
  destruct (ctx !! (context_fields p).1) as [v1 |] eqn:H1;
    [| by rewrite optimize_missing_first].
  destruct (ctx !! (context_fields p).2) as [v2 |] eqn:H2;
    [| by rewrite (optimize_missing_second _ _ _ _ v1)].
  destruct (model p (self w)) as [m |] eqn:Hm;
    [| by rewrite (optimize_no_model _ _ _ _ v1 v2)].
  destruct r as [a b].
  destruct (optimize_run p ctx a b w m v1 v2 H1 H2 Hm) as (i & x & pr & -> & _).
  reflexivity.
Qed.

(** The outcome depends on the context only through the two named fields. *)
Lemma optimize_ext (p : process) (ctx1 ctx2 : gmap string Q) (r : Q * Q)
    (w : world) :
  ctx1 !! (context_fields p).1 = ctx2 !! (context_fields p).1 →
  ctx1 !! (context_fields p).2 = ctx2 !! (context_fields p).2 →
  optimize p ctx1 r w = optimize p ctx2 r w.
Proof.
  intros H1 H2. destruct p; unfold_optimize;
    unfold context_fields in H1, H2; cbn [fst snd] in H1, H2;
    by rewrite H1, H2.
Qed.
End Optimize.

(** ** The optimisation result *)

Section OptimizeClaims.
Context `{Library}.


End OptimizeClaims.



(** ** Validation, purity and the context *)

Section OptimizeBehaviour.
Context `{Library}.

(** The four ways a call can end. *)
Lemma optimize_outcome (p : process) (ctx : gmap string Q) (r : Q * Q)
    (w : world) :
  (optimize p ctx r w).1 = Raise (KeyError (context_fields p).1)
  ∨ (optimize p ctx r w).1 = Raise (KeyError (context_fields p).2)
  ∨ (optimize p ctx r w).1 = Raise (AttributeError "predict")
  ∨ is_Return (optimize p ctx r w).1.
Proof.
  destruct (ctx !! (context_fields p).1) as [v1 |] eqn:H1;
    [| left; by rewrite optimize_missing_first].
  destruct (ctx !! (context_fields p).2) as [v2 |] eqn:H2;
    [| right; left; by rewrite (optimize_missing_second _ _ _ _ v1)].
  destruct (model p (self w)) as [m |] eqn:Hm;
    [| right; right; left; by rewrite (optimize_no_model _ _ _ _ v1 v2)].
  destruct r as [a b]. right; right; right.
  destruct (optimize_run p ctx a b w m v1 v2 H1 H2 Hm) as (i & x & pr & -> & _).
  exact I.
Qed.


(** C4, as the code has it.  A context that lacks a named field makes the
    call fail with [KeyError] on the first missing field, the state being
    left as it was; the control field, when present in the context, is not
    looked at; [SchemaMismatchError] is never raised. *)
Theorem optimize_context_lookup (p : process) (ctx : gmap string Q)
    (r : Q * Q) (w : world) :
  (ctx !! (context_fields p).1 = None →
     optimize p ctx r w = (Raise (KeyError (context_fields p).1), w))
  ∧ (is_Some (ctx !! (context_fields p).1) →
     ctx !! (context_fields p).2 = None →
     optimize p ctx r w = (Raise (KeyError (context_fields p).2), w))
  ∧ (∀ v, optimize p (<[control_field p := v]> ctx) r w = optimize p ctx r w)
  ∧ (optimize p ctx r w).1 ≠ Raise SchemaMismatchError.
Proof.
  split; [apply optimize_missing_first |].
  split; [intros [v1 H1]; by apply optimize_missing_second with v1 |].
  split.
  - intros v. apply optimize_ext; apply lookup_insert_ne; by destruct p.
  - intros E.
    destruct (optimize_outcome p ctx r w) as [E' | [E' | [E' | E']]];
      rewrite E in E'; done.
Qed.

(** C8.  An optimisation call leaves the whole state (the object with its
    models and data sets, the random state, the printed lines) exactly as
    it found it, whether it returns or raises; so the outcome of a call is
    the same before and after a call of either method. *)
Theorem optimize_pure (p q : process) (ctx1 ctx2 : gmap string Q)
    (r1 r2 : Q * Q) (w : world) :
  (optimize p ctx1 r1 w).2 = w
  ∧ (optimize q ctx2 r2 (optimize p ctx1 r1 w).2).1 = (optimize q ctx2 r2 w).1
  ∧ (optimize p ctx1 r1 (optimize q ctx2 r2 w).2).1 = (optimize p ctx1 r1 w).1.
Proof. by rewrite !optimize_state. Qed.

(** C9.  Two contexts that agree on the two named fields of the process
    give the same outcome and the same final state, whatever other keys
    either of them holds. *)
Theorem optimize_reads_named_fields (p : process) (ctx1 ctx2 : gmap string Q)
    (r : Q * Q) (w : world) :
  ctx1 !! (context_fields p).1 = ctx2 !! (context_fields p).1 →
  ctx1 !! (context_fields p).2 = ctx2 !! (context_fields p).2 →
  optimize p ctx1 r w = optimize p ctx2 r w.
Proof. apply optimize_ext. Qed.
End OptimizeBehaviour.



(** A context that carries the control field is accepted. *)
Lemma optimize_context_with_control_returns :
  is_Some (<["gas_injection_rate" := 2%Q]> Demo.well !! control_field GasLift)
  ∧ is_Return (optimize GasLift (<["gas_injection_rate" := 2%Q]> Demo.well)
                 default_gas_range Demo.trained).1
  ∧ (optimize GasLift (<["gas_injection_rate" := 2%Q]> Demo.well)
       default_gas_range Demo.trained).1
    ≠ Raise SchemaMismatchError.
Proof.
  split; [by eexists |]. split; [by vm_compute |].
  intros E. vm_compute in E. discriminate E.
Qed.

Lemma optimize_context_lookup_witness :
  optimize GasLift ∅ default_gas_range Demo.trained
  = (Raise (KeyError "pressure_diff"), Demo.trained)
  ∧ optimize Choke {[ "delta_p" := 1200%Q ]} default_choke_range Demo.trained
    = (Raise (KeyError "glr"), Demo.trained).
Proof.
  split.
  - apply (proj1 (@optimize_context_lookup Demo.library GasLift ∅
                    default_gas_range Demo.trained)).
    reflexivity.
  - apply (proj1 (proj2 (@optimize_context_lookup Demo.library Choke
                           {[ "delta_p" := 1200%Q ]}
                           default_choke_range Demo.trained))).
    + by eexists.
    + reflexivity.
Defined.

Lemma optimize_reads_named_fields_witness :
  optimize GasLift Demo.well default_gas_range Demo.trained
  = optimize GasLift
      (<["gas_injection_rate" := 2%Q]> (<["depth" := 9000%Q]> Demo.well))
      default_gas_range Demo.trained.
Proof.
  apply (@optimize_reads_named_fields Demo.library GasLift); reflexivity.
Defined.

(** ** Generating data *)

Section Generate.
Context `{Library}.

Lemma length_draws {A} (f : rng → A * rng) (n : nat) : ∀ s l s',
  draws f n s = (l, s') → length l = n.
Proof.
  induction n as [| n IH]; intros s l s' E; cbn [draws] in E.
  - by injection E as <- _.
  - destruct (f s) as [x s1]. destruct (draws f n s1) as [xs s2] eqn:E'.
    injection E as <- _. simpl. f_equal. by apply (IH s1 xs s2).
Qed.

(** A generated frame has the control column, the two context columns and
    the target column, in this order, each of [n] entries; it is stored in
    the object, and no target is below 10. *)
Lemma generate_run (p : process) (n : nat) (w : world) :
  ∃ (c1 c2 c3 ys : list Q) (w' : world),
    generate p n w
    = (Return [(control_field p, c1); ((context_fields p).1, c2);
               ((context_fields p).2, c3); (target_field p, ys)], w')
    ∧ data p (self w')
      = Some [(control_field p, c1); ((context_fields p).1, c2);
              ((context_fields p).2, c3); (target_field p, ys)]
    ∧ length c1 = n ∧ length c2 = n ∧ length c3 = n ∧ length ys = n
    ∧ Forall (λ y, (10 <= y)%Q) ys.
Proof.
  destruct p;
    unfold generate, generate_gas_lift_data, generate_choke_data,
      uniform, normal, bind, with_rng, ret, set_self, lift;
    cbn [np_random self stdout];
    repeat match goal with
      | |- context [draws ?f n ?s] =>
          let E := fresh "E" in
          destruct (draws f n s) eqn:E; apply length_draws in E;
          cbn [np_random self stdout]
      end.
  all: unfold pd_DataFrame, same_length; cbn [forallb snd].
  all: unfold arr_add, arr_sub, arr_mul, arr_scale, arr_shift.
  all: repeat (rewrite length_fmap || rewrite length_zip_with).
  all: repeat match goal with
         | E : length ?l = _ |- context [length ?l] => rewrite E
         end.
  all: rewrite ?Nat.min_id, ?Nat.eqb_refl; cbn [andb].
  all: eexists _, _, _, _, _; split; [reflexivity |].
  all: split; [reflexivity |].
  all: repeat (rewrite length_fmap || rewrite length_zip_with).
  all: repeat match goal with
         | E : length ?l = _ |- context [length ?l] => rewrite E
         end.
  all: rewrite ?Nat.min_id.
  all: repeat (split; [reflexivity |]).
  all: apply Forall_fmap, Forall_true; intros x; apply np_maximum_ge_r.
Qed.


(** The data set depends on the state only through the random state. *)
Lemma generate_reads_rng (p : process) (n : nat) (w w' : world) :
  np_random w = np_random w' →
  (generate p n w).1 = (generate p n w').1
  ∧ np_random (generate p n w).2 = np_random (generate p n w').2.
Proof.
  destruct w as [o s out], w' as [o' s' out']. cbn [np_random]. intros <-.
  destruct p;
    unfold generate, generate_gas_lift_data, generate_choke_data,
      uniform, normal, bind, with_rng, ret, set_self, lift;
    cbn [np_random self stdout];
    repeat match goal with
      | |- context [draws ?f n ?s] =>
          destruct (draws f n s); cbn [np_random self stdout]
      end;
    match goal with
    | |- context [pd_DataFrame ?c] => by destruct (pd_DataFrame c)
    end.
Qed.
End Generate.

(** ** Training *)

Section Train.
Context `{Library}.

Lemma n_train_small (n : nat) :
  (n < 2)%nat →
  (n - Z.to_nat (Qceiling ((2 # 10) * Q_of_nat n)))%nat = 0%nat.
Proof. intros Hn. destruct n as [| [| n]]; [reflexivity | reflexivity | lia]. Qed.

Lemma n_train_pos (n : nat) :
  (2 ≤ n)%nat →
  (n - Z.to_nat (Qceiling ((2 # 10) * Q_of_nat n)))%nat ≠ 0%nat.
Proof.
  intros Hn.
  assert (Hc : (Qceiling ((2 # 10) * Q_of_nat n) <= Z.of_nat n - 1)%Z).
  { rewrite <- (Qceiling_Z (Z.of_nat n - 1)). apply Qceiling_resp_le.
    unfold Q_of_nat, Qle, Qmult, inject_Z. simpl. lia. }
  lia.
Qed.

(** Training on a stored four-column frame of [n] rows: the split raises
    [ValueError] when [n < 2], and the method returns when [2 <= n]. *)
Lemma train_run (p : process) (w : world) (c1 c2 c3 ys : list Q) :
  data p (self w)
  = Some [(control_field p, c1); ((context_fields p).1, c2);
          ((context_fields p).2, c3); (target_field p, ys)] →
  ((length c1 < 2)%nat →
     train p w
     = (Raise (ValueError "the resulting train set will be empty"), w))
  ∧ ((2 ≤ length c1)%nat → is_Return (train p w).1).
Proof.
  intros Hd.
  destruct p; cbn [data control_field context_fields target_field fst snd] in Hd;
    unfold train, train_gas_lift_model, train_choke_model,
      bind, get_self, getattr, lift, ret; rewrite Hd; unfold ret.
  all: match goal with
       | |- context [df_drop ?c ?d] =>
           change (df_drop c d) with (Return (take 3 d))
       end.
  all: match goal with
       | |- context [df_getitem ?c ?d] =>
           change (df_getitem c d) with (Return ys)
       end.
  all: unfold train_test_split; cbn [take df_len snd].
  all: split; intros Hn.
  all: try (rewrite (n_train_small _ Hn); reflexivity).
  all: apply n_train_pos, Nat.eqb_neq in Hn; rewrite Hn.
  all: unfold with_rng, set_self, print.
  all: match goal with
       | |- context [RandomForestRegressor_fit ?X ?y ?s] =>
           destruct (RandomForestRegressor_fit X y s)
       | |- context [GradientBoostingRegressor_fit ?X ?y ?s] =>
           destruct (GradientBoostingRegressor_fit X y s)
       end.
  all: exact I.
Qed.
End Train.

(** ** Data sets and training *)

Section DataClaims.
Context `{Library}.

(** C5, as the code has it.  Training on a generated data set of fewer
    than two rows fails in [train_test_split], which raises [ValueError]
    because the training part would be empty. *)
Theorem train_small_dataset (p : process) (n : nat) (w : world) :
  (n < 2)%nat →
  (train p (generate p n w).2).1
  = Raise (ValueError "the resulting train set will be empty").
Proof.
  intros Hn.
  destruct (generate_run p n w)
    as (c1 & c2 & c3 & ys & w' & -> & Hd & Hc1 & _).
  cbn [snd]. destruct (train_run p w' c1 c2 c3 ys Hd) as [Hsmall _].
  rewrite Hsmall; [done | by rewrite Hc1].
Qed.

(** From two rows on both parts of the split are non-empty and training
    returns. *)
Lemma train_enough_rows (p : process) (n : nat) (w : world) :
  (2 ≤ n)%nat → is_Return (train p (generate p n w).2).1.
Proof.
  intros Hn.
  destruct (generate_run p n w)
    as (c1 & c2 & c3 & ys & w' & -> & Hd & Hc1 & _).
  cbn [snd]. destruct (train_run p w' c1 c2 c3 ys Hd) as [_ Hbig].
  apply Hbig. by rewrite Hc1.
Qed.

(** C6, as the code has it.  A data set is a function of the row count and
    of the global random state at the time of the call: two calls that
    start from the same random state return the same data set and leave
    the same random state, whatever else differs between the two states. *)
Theorem generate_deterministic (p : process) (n : nat) (w w' : world) :
  np_random w = np_random w' →
  (generate p n w).1 = (generate p n w').1
  ∧ np_random (generate p n w).2 = np_random (generate p n w').2.
Proof. apply generate_reads_rng. Qed.

(** C7.  Every call of a generator returns a frame, stores it in the
    object, and the target column of that frame has [n] entries, none of
    them below the floor 10. *)
Theorem generate_target_floor (p : process) (n : nat) (w : world) :
  ∃ (df : DataFrame) (ys : list Q),
    (generate p n w).1 = Return df
    ∧ data p (self (generate p n w).2) = Some df
    ∧ df_getitem (target_field p) df = Return ys
    ∧ length ys = n
    ∧ Forall (λ y, (10 <= y)%Q) ys.
Proof.
  destruct (generate_run p n w)
    as (c1 & c2 & c3 & ys & w' & -> & Hd & _ & _ & _ & Hys & Hfloor).
  eexists _, ys. split; [reflexivity |]. split; [exact Hd |].
  split; [by destruct p |]. done.
Qed.

(** C10.  On a freshly constructed object both data fields are [None], and
    either train method raises [AttributeError] at its first statement,
    leaving the state as it was. *)
Theorem train_before_generate (p : process) (s : rng)
    (out : list (string * Q)) :
  data p init = None
  ∧ train p (World init s out)
    = (Raise (AttributeError "drop"), World init s out).
Proof. by destruct p. Qed.
End DataClaims.

(** A one-row data set makes training fail with [ValueError]. *)
Lemma train_single_row_value_error :
  (train GasLift (generate GasLift 1 Demo.start).2).1
  = Raise (ValueError "the resulting train set will be empty")
  ∧ (train GasLift (generate GasLift 1 Demo.start).2).1
    ≠ Raise InsufficientDataError.
Proof.
  split; [by vm_compute |]. intros E. vm_compute in E. discriminate E.
Qed.

Lemma train_small_dataset_witness :
  (train Choke (generate Choke 0 Demo.start).2).1
  = Raise (ValueError "the resulting train set will be empty").
Proof.
  apply (@train_small_dataset Demo.library Choke 0 Demo.start). lia.
Defined.

(** Two successive calls after the one module-level seeding return different
    data sets. *)
Lemma generate_twice_differs :
  ∃ (d1 d2 : DataFrame) (x y : Q),
    (generate GasLift 1 Demo.start).1 = Return d1
    ∧ (generate GasLift 1 (generate GasLift 1 Demo.start).2).1 = Return d2
    ∧ df_getitem "gas_injection_rate" d1 = Return [x]
    ∧ df_getitem "gas_injection_rate" d2 = Return [y]
    ∧ ¬ (x == y)%Q.
Proof.
  eexists _, _, _, _.
  split; [by vm_compute |]. split; [by vm_compute |].
  split; [by vm_compute |]. split; [by vm_compute |].
  by vm_compute.
Qed.

Lemma generate_deterministic_witness :
  (generate GasLift 1 Demo.start).1
  = (generate GasLift 1
       (reseed 42 (generate GasLift 1 Demo.start).2).2).1
  ∧ np_random (generate GasLift 1 Demo.start).2
    = np_random (generate GasLift 1
                   (reseed 42 (generate GasLift 1 Demo.start).2).2).2.
Proof.
  apply (@generate_deterministic Demo.library GasLift 1). reflexivity.
Defined.

(** In a six-row run of the demo the last raw target falls below the floor
    and is stored as 10. *)
Example generate_clamps_in_demo :
  ∃ (df : DataFrame) (ys : list Q),
    (generate GasLift 6 Demo.start).1 = Return df
    ∧ df_getitem "oil_production" df = Return ys
    ∧ ys !! 5%nat = Some 10%Q.
Proof.
  eexists _, _. split; [by vm_compute |]. split; [by vm_compute |].
  by vm_compute.
Qed.

(** * Further properties of the methods *)

(** ** The optimum and the model *)

Section OptimizeExtra.
Context `{Library}.


(** A stored model and a complete context: the call returns the grid, the
    model's values over it, and the entry at the argmax index. *)
Lemma optimize_run_spec (p : process) (ctx : gmap string Q) (a b : Q)
    (w : world) (m : regressor) (v1 v2 : Q) :
  ctx !! (context_fields p).1 = Some v1 →
  ctx !! (context_fields p).2 = Some v2 →
  model p (self w) = Some m →
  ∃ i x,
    optimize p ctx (a, b) w
    = (Return (x, m [x; v1; v2], np_linspace a b 100,
               (λ v, m [v; v1; v2]) <$> np_linspace a b 100), w)
    ∧ np_linspace a b 100 !! i = Some x
    ∧ (∀ j y, np_linspace a b 100 !! j = Some y →
         (m [y; v1; v2] <= m [x; v1; v2])%Q)
    ∧ (∀ j y, (j < i)%nat → np_linspace a b 100 !! j = Some y →
         (m [y; v1; v2] < m [x; v1; v2])%Q).
Proof.
  intros H1 H2 Hm.
  destruct (optimize_run p ctx a b w m v1 v2 H1 H2 Hm)
    as (i & x & pr & Hrun & Hi & Hx & Hp).
  rewrite list_lookup_fmap, Hx in Hp. injection Hp as <-.
  exists i, x. split; [done |]. split; [done |].
  destruct (np_argmax_spec ((λ v, m [v; v1; v2]) <$> np_linspace a b 100))
    as (i' & pr' & Hi' & Hp' & Hall & Hbefore).
  { intros E. apply (f_equal length) in E.
    rewrite length_fmap, length_np_linspace in E. done. }
  rewrite Hi in Hi'. injection Hi' as <-.
  rewrite list_lookup_fmap, Hx in Hp'. injection Hp' as <-.
  split.
  - intros j y Hy. apply (Hall j). by rewrite list_lookup_fmap, Hy.
  - intros j y Hlt Hy. apply (Hbefore j); [done |].
    by rewrite list_lookup_fmap, Hy.
Qed.

(** X1.  Optimising before training: with a complete context and no model
    stored, the call raises [AttributeError] and changes nothing. *)
Theorem optimize_untrained (p : process) (ctx : gmap string Q) (r : Q * Q)
    (w : world) (v1 v2 : Q) :
  model p (self w) = None →
  ctx !! (context_fields p).1 = Some v1 →
  ctx !! (context_fields p).2 = Some v2 →
  optimize p ctx r w = (Raise (AttributeError "predict"), w).
Proof. intros Hm H1 H2. by apply optimize_no_model with v1 v2. Qed.


(** X3.  The curve is the model evaluated with the context held fixed: the
    prediction at every grid point [g] is the model's value on the row
    [g, v1, v2], and the returned prediction is the model's value on the row
    of the returned control value. *)
Theorem optimize_curve_is_model (p : process) (ctx : gmap string Q) (a b : Q)
    (w : world) (m : regressor) (v1 v2 : Q) :
  model p (self w) = Some m →
  ctx !! (context_fields p).1 = Some v1 →
  ctx !! (context_fields p).2 = Some v2 →
  ∃ (x pr : Q) (grid preds : list Q),
    (optimize p ctx (a, b) w).1 = Return (x, pr, grid, preds)
    ∧ pr = m [x; v1; v2]
    ∧ length preds = length grid
    ∧ (∀ i g, grid !! i = Some g → preds !! i = Some (m [g; v1; v2])).
Proof.
  intros Hm H1 H2.
  destruct (optimize_run_spec p ctx a b w m v1 v2 H1 H2 Hm)
    as (i & x & -> & Hx & _).
  eexists _, _, _, _. split; [reflexivity |]. split; [done |].
  split; [by rewrite length_fmap |].
  intros j g Hg. by rewrite list_lookup_fmap, Hg.
Qed.



(** The outcome depends on the state only through the model of the process. *)
Lemma optimize_reads_model (p : process) (ctx : gmap string Q) (r : Q * Q)
    (w w' : world) :
  model p (self w) = model p (self w') →
  (optimize p ctx r w).1 = (optimize p ctx r w').1.
Proof.
  intros Hmm.
  destruct (ctx !! (context_fields p).1) as [v1 |] eqn:H1;
    [| by rewrite !optimize_missing_first].
  destruct (ctx !! (context_fields p).2) as [v2 |] eqn:H2;
    [| by rewrite !(optimize_missing_second _ _ _ _ v1)].
  destruct (model p (self w)) as [m |] eqn:Hm.
  - destruct r as [a b]. symmetry in Hmm.
    destruct (optimize_run p ctx a b w m v1 v2 H1 H2 Hm)
      as (i & x & pr & -> & Hi & Hx & Hp).
    destruct (optimize_run p ctx a b w' m v1 v2 H1 H2 Hmm)
      as (i' & x' & pr' & -> & Hi' & Hx' & Hp').
    rewrite Hi in Hi'. injection Hi' as <-.
    rewrite Hx in Hx'. injection Hx' as <-.
    rewrite Hp in Hp'. injection Hp' as <-. done.
  - symmetry in Hmm.
    by rewrite !(optimize_no_model _ _ _ _ v1 v2).
Qed.

(** X6.  Two states that store the same model for a process give the same
    optimisation outcome for it, whatever their data sets, their other model,
    their random state and their printed lines. *)
Theorem optimize_depends_on_model_only (p : process) (ctx : gmap string Q)
    (r : Q * Q) (w w' : world) :
  model p (self w) = model p (self w') →
  (optimize p ctx r w).1 = (optimize p ctx r w').1.
Proof. apply optimize_reads_model. Qed.
End OptimizeExtra.

(** ** Generated data, training and their effects on the state *)

Section DataExtra.
Context `{Library}.

Lemma draws_Forall {A} (P : A → Prop) (f : rng → A * rng) :
  (∀ s, P (f s).1) → ∀ n s, Forall P (draws f n s).1.
Proof.
  intros Hf. induction n as [| n IH]; intros s; cbn [draws].
  - constructor.
  - specialize (Hf s). destruct (f s) as [x s1]. specialize (IH s1).
    destruct (draws f n s1) as [xs s2]. constructor; done.
Qed.

Lemma draws_state_add {A} (f : rng → A * rng) (a b : nat) : ∀ s,
  (draws f (a + b) s).2 = (draws f b (draws f a s).2).2.
Proof.
  induction a as [| a IH]; intros s; cbn [draws Nat.add].
  - done.
  - destruct (f s) as [x s1]. specialize (IH s1).
    destruct (draws f (a + b) s1) as [xs s2].
    destruct (draws f a s1) as [ys s3]. cbn [snd] in *. done.
Qed.

Lemma Forall_zip_with2 {A B C} (P : A → Prop) (Q' : B → Prop) (R : C → Prop)
    (f : A → B → C) (l : list A) (k : list B) :
  (∀ x y, P x → Q' y → R (f x y)) →
  Forall P l → Forall Q' k → Forall R (zip_with f l k).
Proof.
  intros Hf Hl. revert k. induction Hl as [| x l Hx Hl IH]; intros k Hk.
  - constructor.
  - destruct Hk as [| y k Hy Hk]; simpl; constructor; eauto.
Qed.

Lemma uniform_range (low high u : Q) :
  (low <= high)%Q → (0 <= u < 1)%Q →
  (low <= low + (high - low) * u)%Q
  ∧ ((low < high)%Q → (low + (high - low) * u < high)%Q).
Proof. intros Hlh [H0 H1]. split; [nra | intros Hlt; nra]. Qed.

Ltac run_generate n :=
  unfold generate, generate_gas_lift_data, generate_choke_data,
    uniform, normal, bind, with_rng, ret, set_self, lift;
  cbn [np_random self stdout].

(** What a generator call leaves alone. *)
Lemma generate_effect (p : process) (n : nat) (w : world) :
  (∀ q, model q (self (generate p n w).2) = model q (self w))
  ∧ data (other p) (self (generate p n w).2) = data (other p) (self w)
  ∧ stdout (generate p n w).2 = stdout w.
Proof.
  destruct p; run_generate n;
    repeat match goal with
      | |- context [draws ?f n ?s] =>
          destruct (draws f n s); cbn [np_random self stdout]
      end;
    match goal with
    | |- context [pd_DataFrame ?c] => destruct (pd_DataFrame c)
    end;
    (split; [by intros [] |]); done.
Qed.

(** How a train call ends: it raises and changes nothing, or it returns with
    a model stored for its process, one more printed line, and everything
    else except the random state as before. *)
Lemma train_cases (p : process) (w : world) :
  (∃ e, train p w = (Raise e, w))
  ∨ (∃ m x w',
       train p w = (Return (), w')
       ∧ model p (self w') = Some m
       ∧ model (other p) (self w') = model (other p) (self w)
       ∧ (∀ q, data q (self w') = data q (self w))
       ∧ stdout w' = stdout w ++ [(score_label p, x)]).
Proof.
  destruct p;
    unfold train, train_gas_lift_model, train_choke_model,
      bind, get_self, getattr, lift, raise, ret.
  - destruct (gas_lift_data (self w)) as [d |]; unfold ret, lift;
      [| left; by eexists].
    destruct (df_drop "oil_production" d) as [X |]; [| left; by eexists].
    destruct (df_getitem "oil_production" d) as [y |]; [| left; by eexists].
    destruct (train_test_split X y (2 # 10) 42) as [[[[Xtr Xte] ytr] yte] |];
      [| left; by eexists].
    unfold with_rng, set_self, print.
    destruct (RandomForestRegressor_fit Xtr ytr (np_random w)) as [m s].
    right. eexists m, _, _. split; [reflexivity |].
    cbn [self stdout model other data gas_lift_model choke_model
         gas_lift_data choke_data score_label].
    split; [done |]. split; [done |]. split; [by intros [] |]. done.
  - destruct (choke_data (self w)) as [d |]; unfold ret, lift;
      [| left; by eexists].
    destruct (df_drop "flow_rate" d) as [X |]; [| left; by eexists].
    destruct (df_getitem "flow_rate" d) as [y |]; [| left; by eexists].
    destruct (train_test_split X y (2 # 10) 42) as [[[[Xtr Xte] ytr] yte] |];
      [| left; by eexists].
    unfold with_rng, set_self, print.
    destruct (GradientBoostingRegressor_fit Xtr ytr (np_random w)) as [m s].
    right. eexists m, _, _. split; [reflexivity |].
    cbn [self stdout model other data gas_lift_model choke_model
         gas_lift_data choke_data score_label].
    split; [done |]. split; [done |]. split; [by intros [] |]. done.
Qed.

(** X7.  Completeness of a generated frame: its columns are the control
    field, the two context fields and the target field, in this order; every
    column has [n] entries; read by rows it has [n] rows of four values. *)
Theorem generate_frame_shape (p : process) (n : nat) (w : world) :
  ∃ df : DataFrame,
    (generate p n w).1 = Return df
    ∧ df.*1 = [control_field p; (context_fields p).1;
               (context_fields p).2; target_field p]
    ∧ Forall (λ c, length c.2 = n) df
    ∧ length (df_rows df) = n
    ∧ Forall (λ r, length r = 4%nat) (df_rows df).
Proof.
  destruct (generate_run p n w)
    as (c1 & c2 & c3 & ys & w' & -> & _ & Hc1 & Hc2 & Hc3 & Hys & _).
  eexists. split; [reflexivity |]. split; [done |].
  split; [by repeat constructor |].
  unfold df_rows, df_len. cbn [snd]. rewrite length_fmap, length_seq.
  split; [done |]. apply Forall_fmap, Forall_true. by intros i.
Qed.

(** X8.  A generator call only replaces the data set of its own process: both
    models, the data set of the other process and the printed lines are as
    before.  In particular a model trained on earlier data stays stored. *)
Theorem generate_keeps_rest (p : process) (n : nat) (w : world) :
  (∀ q, model q (self (generate p n w).2) = model q (self w))
  ∧ data (other p) (self (generate p n w).2) = data (other p) (self w)
  ∧ stdout (generate p n w).2 = stdout w.
Proof. apply generate_effect. Qed.

(** X9.  A generator call advances the global random state by exactly [4 n]
    uniform draws followed by [n] normal draws. *)
Theorem generate_advances_rng (p : process) (n : nat) (w : world) :
  np_random (generate p n w).2
  = (draws standard_normal n
       (draws random_sample (4 * n) (np_random w)).2).2.
Proof.
  replace (4 * n)%nat with (n + (n + (n + n)))%nat by lia.
  rewrite !draws_state_add.
  destruct p; run_generate n;
    repeat match goal with
      | |- context [draws ?f n ?s] =>
          destruct (draws f n s); cbn [np_random self stdout fst snd]
      end;
    match goal with
    | |- context [pd_DataFrame ?c] => by destruct (pd_DataFrame c)
    end.
Qed.
End DataExtra.

Section DataExtra2.
Context `{Library}.

Ltac run_generate' n Hu :=
  unfold generate, generate_gas_lift_data, generate_choke_data,
    uniform, normal, bind, with_rng, ret, set_self, lift;
  cbn [np_random self stdout];
  repeat match goal with
    | |- context [draws random_sample n ?s] =>
        let F := fresh "F" in
        let E := fresh "E" in
        pose proof (draws_Forall (λ u, (0 <= u < 1)%Q) random_sample Hu n s) as F;
        destruct (draws random_sample n s) eqn:E; apply length_draws in E;
        cbn [np_random self stdout fst] in *
    | |- context [draws standard_normal n ?s] =>
        let E := fresh "E" in
        destruct (draws standard_normal n s) eqn:E; apply length_draws in E;
        cbn [np_random self stdout] in *
    end;
  unfold pd_DataFrame, same_length; cbn [forallb snd];
  unfold arr_add, arr_sub, arr_mul, arr_scale, arr_shift;
  repeat (rewrite length_fmap || rewrite length_zip_with);
  repeat match goal with
    | E : length ?l = _ |- context [length ?l] => rewrite E
    end;
  rewrite ?Nat.min_id, ?Nat.eqb_refl; cbn [andb fst].

Ltac uniform_column F :=
  apply Forall_fmap; eapply Forall_impl; [exact F |];
  intros ? [? ?]; simpl; split; lra.

(** X10.  When the generator's uniform draws lie in [0, 1), every generated
    gas-lift row has its injection rate in [0.5, 5), its pressure
    difference strictly between 200 and 3900, and its water cut in
    [0, 95). *)
Theorem generate_gas_lift_ranges (n : nat) (w : world) :
  (∀ s, (0 <= (random_sample s).1 < 1)%Q) →
  ∃ (rate pdiff wcut oil : list Q),
    (generate_gas_lift_data n w).1
    = Return [("gas_injection_rate", rate); ("pressure_diff", pdiff);
              ("water_cut", wcut); ("oil_production", oil)]
    ∧ Forall (λ x, ((1 # 2) <= x < 5)%Q) rate
    ∧ Forall (λ x, (200 < x < 3900)%Q) pdiff
    ∧ Forall (λ x, (0 <= x < 95)%Q) wcut.
Proof.
  intros Hu. run_generate' n Hu.
  eexists _, _, _, _. split; [reflexivity |].
  split; [uniform_column F1 |]. split; [| uniform_column F2].
  apply (Forall_zip_with2 (λ x, (1000 <= x < 4000)%Q)
           (λ y, (100 <= y < 800)%Q)).
  - intros x y [? ?] [? ?]. split; lra.
  - uniform_column F.
  - uniform_column F0.
Qed.

(** X11.  When the generator's uniform draws lie in [0, 1), every generated
    choke row has its choke size in [8, 64), its pressure drop strictly
    between 0 and 2950 (so the square root is taken of a positive number),
    and its gas-liquid ratio in [100, 2000). *)
Theorem generate_choke_ranges (n : nat) (w : world) :
  (∀ s, (0 <= (random_sample s).1 < 1)%Q) →
  ∃ (size dp ratio rate : list Q),
    (generate_choke_data n w).1
    = Return [("choke_size", size); ("delta_p", dp);
              ("glr", ratio); ("flow_rate", rate)]
    ∧ Forall (λ x, (8 <= x < 64)%Q) size
    ∧ Forall (λ x, (0 < x < 2950)%Q) dp
    ∧ Forall (λ x, (100 <= x < 2000)%Q) ratio.
Proof.
  intros Hu. run_generate' n Hu.
  eexists _, _, _, _. split; [reflexivity |].
  split; [uniform_column F |]. split; [| uniform_column F2].
  apply (Forall_zip_with2 (λ x, (500 <= x < 3000)%Q)
           (λ y, (50 <= y < 500)%Q)).
  - intros x y [? ?] [? ?]. split; lra.
  - uniform_column F0.
  - uniform_column F1.
Qed.

(** X12.  Training on a generated data set of at least two rows returns,
    stores a model for its process, prints exactly one line (its label and
    the score), and leaves the other model and both data sets as they
    were. *)
Theorem train_effect (p : process) (n : nat) (w : world) :
  (2 ≤ n)%nat →
  ∃ (m : regressor) (x : Q),
    (train p (generate p n w).2).1 = Return ()
    ∧ model p (self (train p (generate p n w).2).2) = Some m
    ∧ model (other p) (self (train p (generate p n w).2).2)
      = model (other p) (self w)
    ∧ (∀ q, data q (self (train p (generate p n w).2).2)
            = data q (self (generate p n w).2))
    ∧ stdout (train p (generate p n w).2).2
      = stdout w ++ [(score_label p, x)].
Proof.
  intros Hn. pose proof (train_enough_rows p n w Hn) as Hret.
  destruct (generate_effect p n w) as (Hmodel & _ & Hout).
  destruct (train_cases p (generate p n w).2)
    as [[e E] | (m & x & w' & E & Hm & Ho & Hd & Hs)];
    rewrite E in *; [done |].
  exists m, x. cbn [fst snd].
  by rewrite Hm, Ho, Hmodel, Hs, Hout.
Qed.

(** X13.  A train call that raises leaves the whole state as it was: no
    model is stored, nothing is printed, no random number is drawn. *)
Theorem train_failure_keeps_state (p : process) (w : world) (e : exn) :
  (train p w).1 = Raise e → (train p w).2 = w.
Proof.
  intros Hfail.
  destruct (train_cases p w) as [[e' E] | (m & x & w' & E & _)];
    rewrite E in *; done.
Qed.

(** X14.  Generate, train, optimise: for at least two rows and a context
    holding the two named fields, the three calls in sequence return a
    curve of 100 grid points and 100 predictions whose best control value
    is one of the grid points. *)
Theorem generate_train_optimize (p : process) (n : nat)
    (ctx : gmap string Q) (a b : Q) (w : world) (v1 v2 : Q) :
  (2 ≤ n)%nat →
  ctx !! (context_fields p).1 = Some v1 →
  ctx !! (context_fields p).2 = Some v2 →
  ∃ (x pr : Q) (grid preds : list Q),
    ((generate p n ;;; train p ;;; optimize p ctx (a, b)) w).1
    = Return (x, pr, grid, preds)
    ∧ length grid = 100%nat
    ∧ length preds = 100%nat
    ∧ x ∈ grid.
Proof.
  intros Hn H1 H2. pose proof (train_enough_rows p n w Hn) as Hret.
  unfold bind.
  destruct (generate_run p n w) as (c1 & c2 & c3 & ys & w1 & E1 & _).
  rewrite E1 in *. cbn [snd] in Hret.
  destruct (train_cases p w1) as [[e E] | (m & s & w2 & E & Hm & _)];
    rewrite E in *; [done |].
  destruct (optimize_run p ctx a b w2 m v1 v2 H1 H2 Hm)
    as (i & x & pr & -> & _ & Hx & _).
  eexists _, _, _, _. split; [reflexivity |].
  split; [apply length_np_linspace |].
  split; [by rewrite length_fmap, length_np_linspace |].
  apply list_elem_of_lookup. by exists i.
Qed.

(** X15.  The outcome of an optimisation is the same after a generator call
    of either process and after a train call of the other process: new data
    does not reach a stored model until it is trained again, and the two
    processes do not share a model. *)
Theorem optimize_after_other_calls (p q : process) (n : nat)
    (ctx : gmap string Q) (r : Q * Q) (w : world) :
  (optimize p ctx r (generate q n w).2).1 = (optimize p ctx r w).1
  ∧ (optimize p ctx r (train (other p) w).2).1 = (optimize p ctx r w).1.
Proof.
  split; apply optimize_reads_model.
  - apply generate_effect.
  - destruct (train_cases (other p) w)
      as [[e E] | (m & x & w' & E & _ & Ho & _)]; rewrite E; cbn [snd];
      [done |].
    by destruct p.
Qed.
End DataExtra2.

(** ** Runs of the further properties on the demo library *)

Lemma lcg_sample_range (s : Z) : (0 <= (Demo.lcg_sample s).1 < 1)%Q.
Proof.
  unfold Demo.lcg_sample, Demo.lcg_next. cbn [fst].
  pose proof (Z.mod_pos_bound (1103515245 * s + 12345) 2147483648 eq_refl)
    as [Hlo Hhi].
  unfold Qle, Qlt. simpl. lia.
Qed.

Lemma optimize_untrained_witness :
  optimize GasLift Demo.well default_gas_range Demo.start
  = (Raise (AttributeError "predict"), Demo.start).
Proof.
  apply (@optimize_untrained Demo.library GasLift Demo.well default_gas_range
           Demo.start 2000 30); reflexivity.
Defined.


Lemma optimize_curve_is_model_witness :
  ∃ (x pr : Q) (grid preds : list Q),
    (optimize Choke Demo.flow (8, 64)%Q Demo.trained).1
    = Return (x, pr, grid, preds)
    ∧ pr = Demo.plateau [x; 1200%Q; 500%Q]
    ∧ length preds = length grid
    ∧ (∀ i g, grid !! i = Some g →
         preds !! i = Some (Demo.plateau [g; 1200%Q; 500%Q])).
Proof.
  apply (@optimize_curve_is_model Demo.library Choke Demo.flow 8 64
           Demo.trained Demo.plateau 1200 500); reflexivity.
Defined.



Lemma optimize_depends_on_model_only_witness :
  (optimize GasLift Demo.well default_gas_range Demo.trained).1
  = (optimize GasLift Demo.well default_gas_range
       (generate Choke 2 (reseed 7 Demo.trained).2).2).1.
Proof.
  apply (@optimize_depends_on_model_only Demo.library GasLift). reflexivity.
Defined.

Lemma generate_gas_lift_ranges_witness :
  ∃ (rate pdiff wcut oil : list Q),
    (generate_gas_lift_data 3 Demo.start).1
    = Return [("gas_injection_rate", rate); ("pressure_diff", pdiff);
              ("water_cut", wcut); ("oil_production", oil)]
    ∧ Forall (λ x, ((1 # 2) <= x < 5)%Q) rate
    ∧ Forall (λ x, (200 < x < 3900)%Q) pdiff
    ∧ Forall (λ x, (0 <= x < 95)%Q) wcut.
Proof.
  apply (@generate_gas_lift_ranges Demo.library 3 Demo.start).
  exact lcg_sample_range.
Defined.

Lemma generate_choke_ranges_witness :
  ∃ (size dp ratio rate : list Q),
    (generate_choke_data 3 Demo.start).1
    = Return [("choke_size", size); ("delta_p", dp);
              ("glr", ratio); ("flow_rate", rate)]
    ∧ Forall (λ x, (8 <= x < 64)%Q) size
    ∧ Forall (λ x, (0 < x < 2950)%Q) dp
    ∧ Forall (λ x, (100 <= x < 2000)%Q) ratio.
Proof.
  apply (@generate_choke_ranges Demo.library 3 Demo.start).
  exact lcg_sample_range.
Defined.

Lemma train_effect_witness :
  ∃ (m : regressor) (x : Q),
    (train GasLift (generate GasLift 2 Demo.start).2).1 = Return ()
    ∧ model GasLift (self (train GasLift (generate GasLift 2 Demo.start).2).2)
      = Some m
    ∧ model Choke (self (train GasLift (generate GasLift 2 Demo.start).2).2)
      = model Choke (self Demo.start)
    ∧ (∀ q, data q (self (train GasLift (generate GasLift 2 Demo.start).2).2)
            = data q (self (generate GasLift 2 Demo.start).2))
    ∧ stdout (train GasLift (generate GasLift 2 Demo.start).2).2
      = stdout Demo.start ++ [("Gas Lift Model R²:", x)].
Proof.
  apply (@train_effect Demo.library GasLift 2 Demo.start). lia.
Defined.

Lemma train_failure_keeps_state_witness :
  (train Choke Demo.start).2 = Demo.start.
Proof.
  apply (@train_failure_keeps_state Demo.library Choke Demo.start
           (AttributeError "drop")).
  reflexivity.
Defined.

Lemma generate_train_optimize_witness :
  ∃ (x pr : Q) (grid preds : list Q),
    ((generate GasLift 2 ;;; train GasLift ;;;
      optimize GasLift Demo.well (1 # 2, 5)%Q) Demo.start).1
    = Return (x, pr, grid, preds)
    ∧ length grid = 100%nat
    ∧ length preds = 100%nat
    ∧ x ∈ grid.
Proof.
  apply (@generate_train_optimize Demo.library GasLift 2 Demo.well
           (1 # 2) 5 Demo.start 2000 30);
    [lia | reflexivity | reflexivity].
Defined.
